(** * astroutils: the Earth-shadow test and its vector helpers

    A shallow embedding of [src/python/utils/math.py] and
    [src/python/eclipse.py].  The Python code is written once, against an
    interface of scalar operations ([Arith], [Trig]); the interface is then
    read twice:

    - over IEEE 754 binary64 ([Binary64]), the arithmetic NumPy really
      performs on [float64] arrays, with the transcendental functions of the
      platform's math library left as a parameter ([Libm]);
    - over the real numbers ([Exact]), free of rounding: this reading
      serves to exhibit positions at which the hypotheses of the statements
      proved for every reading hold.

    Statements that follow the control flow of the code are proved once for
    every reading; statements about values are proved over binary64. *)

From Stdlib Require Import Bool ZArith List Lia Reals Lra Floats.
From Stdlib Require Uint63.

Set Implicit Arguments.

(** ** Scalars *)

(** The arithmetic the two modules apply to array elements and scalars. *)
Class Arith (F : Type) : Type := {
  lit0 : F;                       (* the literal [0.0] *)
  add : F -> F -> F;              (* [+] *)
  sub : F -> F -> F;              (* [-] *)
  mul : F -> F -> F;              (* [*] *)
  div : F -> F -> F;              (* [/] *)
  neg : F -> F;                   (* unary [-] *)
  np_sqrt : F -> F;
  ltb : F -> F -> bool;           (* [<] *)
  leb : F -> F -> bool            (* [<=] *)
}.

(** The transcendental functions, and the factor of [np.rad2deg]. *)
Class Trig (F : Type) : Type := {
  np_arctan : F -> F;
  np_arccos : F -> F;
  np_cos : F -> F;
  np_sin : F -> F;
  np_tan : F -> F;
  deg_per_rad : F                 (* 180/pi *)
}.

Declare Scope scalar_scope.
Delimit Scope scalar_scope with sc.
Infix "+" := add : scalar_scope.
Infix "-" := sub : scalar_scope.
Infix "*" := mul : scalar_scope.
Infix "/" := div : scalar_scope.
Notation "- x" := (neg x) : scalar_scope.
Infix "<?" := ltb : scalar_scope.
Infix "<=?" := leb : scalar_scope.

(** [utils/constants.py] is imported by [eclipse.py] but is not part of the
    sources at hand: the two radii are parameters of the shadow test. *)
Record Constants (F : Type) : Type := {
  earth_radius_km : F;
  sun_radius_km : F
}.

(** ** Vectors *)

(** A one-dimensional array of three elements. *)
Record Vec3 (F : Type) : Type := mkVec3 { vx : F; vy : F; vz : F }.

Arguments mkVec3 {F} _ _ _.

Section Program.
Context {F : Type} {A : Arith F} {T : Trig F}.
Local Open Scope scalar_scope.

(** Element-wise operations with NumPy's broadcasting of a scalar. *)
Definition vneg (a : Vec3 F) : Vec3 F :=
  mkVec3 (- vx a) (- vy a) (- vz a).

Definition vmul (a b : Vec3 F) : Vec3 F :=
  mkVec3 (vx a * vx b) (vy a * vy b) (vz a * vz b).

Definition vdiv_scalar (a : Vec3 F) (s : F) : Vec3 F :=
  mkVec3 (vx a / s) (vy a / s) (vz a / s).

Definition vscale (s : F) (a : Vec3 F) : Vec3 F :=
  mkVec3 (s * vx a) (s * vy a) (s * vz a).

(** [np.sum(_, axis=0)]: the three elements added up.  The binary64 values
    established below are for vectors whose last element is zero, or for
    integers that add up without error, where the order of the two
    additions makes no difference; the one bound that depends on the order
    is proved for both. *)
Definition np_sum (a : Vec3 F) : F := (vx a + vy a) + vz a.

(** [np.dot] of two one-dimensional arrays.  NumPy hands it to a BLAS
    routine, which may fuse a product with the addition that follows; the
    statements below hold for any such evaluation, or concern products and
    sums of integers that are computed without error. *)
Definition np_dot (a b : Vec3 F) : F := np_sum (vmul a b).

(** [np.linalg.norm(x)] and [np.linalg.norm(x, axis=0)]: the square root
    of the sum of the squared elements. *)
Definition linalg_norm (x : Vec3 F) : F := np_sqrt (np_dot x x).

Definition linalg_norm_axis0 (x : Vec3 F) : F := np_sqrt (np_sum (vmul x x)).

Definition np_rad2deg (x : F) : F := x * deg_per_rad.

(** *** utils/math.py *)

Definition norm (x : Vec3 F) : F := linalg_norm x.

Definition unit_vector (x : Vec3 F) : Vec3 F :=
  vdiv_scalar x (linalg_norm_axis0 x).

Definition angle_between_vectors_rad (a b : Vec3 F) : F :=
  np_arccos (np_sum (vmul (unit_vector a) (unit_vector b))).

Definition angle_between_vectors_deg (a b : Vec3 F) : F :=
  np_rad2deg (np_arccos (np_sum (vmul (unit_vector a) (unit_vector b)))).

(** *** eclipse.py *)

Variable K : Constants F.

(** The two flags start [False] and are assigned in the branches; the
    pair returned is [(in_penumbra, in_umbra)]. *)
Definition check_object_umbra_penumba
    (earth_object_position_vector_eci earth_sun_position_vector_eci : Vec3 F)
    : bool * bool :=
  let earth_sun_distance := norm earth_sun_position_vector_eci in
  let umbra_angle :=
    np_arctan ((sun_radius_km K - earth_radius_km K) / earth_sun_distance) in
  let penumbra_angle :=
    np_arctan ((sun_radius_km K + earth_radius_km K) / earth_sun_distance) in
  let in_umbra := false in
  let in_penumbra := false in
  let '(in_penumbra, in_umbra) :=
    if np_dot earth_object_position_vector_eci earth_sun_position_vector_eci
         <? lit0
    then
      let angle :=
        angle_between_vectors_rad (vneg earth_sun_position_vector_eci)
                                  earth_object_position_vector_eci in
      let sathoriz := norm earth_object_position_vector_eci * np_cos angle in
      let satvert := norm earth_object_position_vector_eci * np_sin angle in
      let x := earth_radius_km K / np_sin penumbra_angle in
      let penvert := np_tan penumbra_angle * (x + sathoriz) in
      if satvert <=? penvert then
        let in_penumbra := true in
        let y := earth_radius_km K / np_sin umbra_angle in
        let umbvert := np_tan umbra_angle * (y - sathoriz) in
        if satvert <=? umbvert then
          let in_umbra := true in
          (in_penumbra, in_umbra)
        else (in_penumbra, in_umbra)
      else (in_penumbra, in_umbra)
    else (in_penumbra, in_umbra) in
  (in_penumbra, in_umbra).

Definition check_eclipse
    (earth_object_position_vector_eci earth_sun_position_vector_eci : Vec3 F)
    : bool :=
  let '(in_penumbra, in_umbra) :=
    check_object_umbra_penumba earth_object_position_vector_eci
                               (vneg earth_sun_position_vector_eci) in
  if in_penumbra || in_umbra then true else false.

End Program.

Arguments check_object_umbra_penumba {F A T} K _ _.
Arguments check_eclipse {F A T} K _ _.

(** ** The quantities of the cone test

    The local variables of [check_object_umbra_penumba], each as a function
    of the two positions, so that statements can name them. *)

Section ConeFormulas.
Context {F : Type} {A : Arith F} {T : Trig F}.
Variable K : Constants F.
Local Open Scope scalar_scope.

Definition umbra_half_angle (sunPos : Vec3 F) : F :=
  np_arctan ((sun_radius_km K - earth_radius_km K) / norm sunPos).

Definition penumbra_half_angle (sunPos : Vec3 F) : F :=
  np_arctan ((sun_radius_km K + earth_radius_km K) / norm sunPos).

(** The angle between the anti-solar direction and the body. *)
Definition antisolar_angle (bodyPos sunPos : Vec3 F) : F :=
  angle_between_vectors_rad (vneg sunPos) bodyPos.

Definition sathoriz (bodyPos sunPos : Vec3 F) : F :=
  norm bodyPos * np_cos (antisolar_angle bodyPos sunPos).

Definition satvert (bodyPos sunPos : Vec3 F) : F :=
  norm bodyPos * np_sin (antisolar_angle bodyPos sunPos).

Definition penvert (bodyPos sunPos : Vec3 F) : F :=
  np_tan (penumbra_half_angle sunPos)
  * (earth_radius_km K / np_sin (penumbra_half_angle sunPos)
     + sathoriz bodyPos sunPos).

Definition umbvert (bodyPos sunPos : Vec3 F) : F :=
  np_tan (umbra_half_angle sunPos)
  * (earth_radius_km K / np_sin (umbra_half_angle sunPos)
     - sathoriz bodyPos sunPos).

End ConeFormulas.

(** What the guard [np.dot(...) < 0.0] needs of the comparisons: a number
    that is at least [0.0] is not below [0.0]. *)
Class SignTest (F : Type) {A : Arith F} : Prop := {
  nonneg_not_neg : forall x : F, leb lit0 x = true -> ltb x lit0 = false
}.

Arguments SignTest F {A}.

(** ** IEEE 754 binary64 *)

Module Binary64.

Local Open Scope float_scope.

#[export] Instance arith : Arith float := {|
  lit0 := 0;
  add := PrimFloat.add;
  sub := PrimFloat.sub;
  mul := PrimFloat.mul;
  div := PrimFloat.div;
  neg := PrimFloat.opp;
  np_sqrt := PrimFloat.sqrt;
  ltb := PrimFloat.ltb;
  leb := PrimFloat.leb
|}.

(** The platform's math library: its results are not fixed bit for bit by
    IEEE 754, so nothing is assumed about them. *)
Record Libm : Type := {
  libm_atan : float -> float;
  libm_acos : float -> float;
  libm_cos : float -> float;
  libm_sin : float -> float;
  libm_tan : float -> float
}.

(** [np.arccos] on a real input: NaN for an argument that has no real arc
    cosine, the library's value otherwise. *)
Definition arccos (m : Libm) (x : float) : float :=
  if (x <? -1) || (1 <? x) then nan else libm_acos m x.

(** [deg_per_rad] is the binary64 number nearest to 180/pi,
    57.29577951308232. *)
Definition trig (m : Libm) : Trig float := {|
  np_arctan := libm_atan m;
  np_arccos := arccos m;
  np_cos := libm_cos m;
  np_sin := libm_sin m;
  np_tan := libm_tan m;
  deg_per_rad := 0x1.ca5dc1a63c1f8p+5
|}.

(** At least one element differs from zero. *)
Definition nonzero (v : Vec3 float) : bool :=
  negb ((vx v =? 0) && (vy v =? 0) && (vz v =? 0)).

(** The value handed to [np.arccos] by the two angle functions. *)
Definition arccos_argument (a b : Vec3 float) : float :=
  np_sum (vmul (unit_vector a) (unit_vector b)).

End Binary64.

(** ** Exact real arithmetic *)

Module Exact.

Local Open Scope R_scope.

Definition Rltb (x y : R) : bool := if Rlt_dec x y then true else false.

Definition Rleb (x y : R) : bool := if Rle_dec x y then true else false.

#[export] Instance arith : Arith R := {|
  lit0 := 0;
  add := Rplus;
  sub := Rminus;
  mul := Rmult;
  div := Rdiv;
  neg := Ropp;
  np_sqrt := R_sqrt.sqrt;
  ltb := Rltb;
  leb := Rleb
|}.

#[export] Instance trig : Trig R := {|
  np_arctan := atan;
  np_arccos := acos;
  np_cos := cos;
  np_sin := sin;
  np_tan := tan;
  deg_per_rad := 180 / PI
|}.

Definition zero_vector : Vec3 R := mkVec3 0 0 0.

(** Modelled from the spec: the constants module [utils/constants.py] is
    missing; the specification gives about 6378.137 for [earthRadiusKm] and
    about 695,700 for [sunRadiusKm]. *)
Definition constants : Constants R := {|
  earth_radius_km := 6378.137;
  sun_radius_km := 695700
|}.

End Exact.

(** ** Vocabulary for further properties *)

(** Laws of the arithmetic on which the symmetries of the functions rest:
    multiplication commutes, two sign changes cancel in a product, and a
    sign change of the dividend passes to the quotient. *)
Class SignLaws (F : Type) {A : Arith F} : Prop := {
  mul_comm_law : forall x y : F, mul x y = mul y x;
  mul_neg_neg : forall x y : F, mul (neg x) (neg y) = mul x y;
  div_neg_l : forall x y : F, div (neg x) y = neg (div x y)
}.

Arguments SignLaws F {A}.

Module Binary64Vocabulary.

Local Open Scope float_scope.

(** Some element is NaN. *)
Definition has_nan (v : Vec3 float) : bool :=
  is_nan (vx v) || is_nan (vy v) || is_nan (vz v).

(** Every element is [0.0] or [-0.0]. *)
Definition all_zero (v : Vec3 float) : bool :=
  (vx v =? 0) && (vy v =? 0) && (vz v =? 0).

(** A number, by its specification, that is a zero or NaN: what a product
    with a zero can be. *)
Definition zero_or_nan (f : spec_float) : Prop :=
  match f with
  | S754_nan | S754_zero _ => True
  | _ => False
  end.

End Binary64Vocabulary.

(** ** Binary64: the math library at work and small integer vectors *)

Module Binary64Numbers.

Import Binary64 ListNotations.
Local Open Scope float_scope.

(** The binary64 number nearest to pi, 3.141592653589793. *)
Definition pi64 : float := 0x1.921fb54442d18p+1.

(** Modelled from the spec: the constants module [utils/constants.py] is
    missing; the specification gives about 6378.137 for [earthRadiusKm]
    (here the nearest binary64 number) and about 695,700 for
    [sunRadiusKm]. *)
Definition constants : Constants float := {|
  earth_radius_km := 0x1.8ea23126e978dp+12;
  sun_radius_km := 695700
|}.

(** The numbers within [k] units in the last place of [r], in increasing
    order. *)
Fixpoint steps (f : float -> float) (k : nat) (x : float) : list float :=
  match k with
  | O => []
  | S k' => f x :: steps f k' (f x)
  end.

Definition ulp_window (k : nat) (r : float) : list float :=
  rev (steps next_down k r) ++ r :: steps next_up k r.

(** What the shadow test asks of the math library when the Sun is at
    (1.496e8, 0, 0) km: the arc tangents of the two cone slopes, and the
    sine and tangent of the resulting half-angles.  The slopes are the
    numbers the code computes; the other six are the correctly rounded
    values of the functions there. *)
Definition umbra_slope : float := 0x1.2df97e452372bp-8.
Definition umbra_angle_ref : float := 0x1.2df8f23693a5cp-8.
Definition umbra_sin_ref : float := 0x1.2df8ac2f77982p-8.
Definition umbra_tan_ref : float := 0x1.2df97e452372bp-8.
Definition penumbra_slope : float := 0x1.339012be60888p-8.
Definition penumbra_angle_ref : float := 0x1.338f7ec43f0a7p-8.
Definition penumbra_sin_ref : float := 0x1.338f34c75e5a0p-8.
Definition penumbra_tan_ref : float := 0x1.339012be60888p-8.

(** A math library that is accurate where the scenario needs it: exact at
    the three arguments where the exact result is a binary64 number, within
    8 units in the last place for the two arc tangents, and within 16 units
    in the last place of the reference for the sine and the tangent of any
    number within 8 of a half-angle. *)
Record scenario_accuracy (m : Libm) : Prop := {
  acos_at_one : libm_acos m 1 = 0;
  cos_at_zero : libm_cos m 0 = 1;
  sin_at_zero : libm_sin m 0 = 0;
  atan_at_umbra_slope :
    In (libm_atan m umbra_slope) (ulp_window 8 umbra_angle_ref);
  sin_at_umbra_angle : forall u : float,
    In u (ulp_window 8 umbra_angle_ref) ->
    In (libm_sin m u) (ulp_window 16 umbra_sin_ref);
  tan_at_umbra_angle : forall u : float,
    In u (ulp_window 8 umbra_angle_ref) ->
    In (libm_tan m u) (ulp_window 16 umbra_tan_ref);
  atan_at_penumbra_slope :
    In (libm_atan m penumbra_slope) (ulp_window 8 penumbra_angle_ref);
  sin_at_penumbra_angle : forall p : float,
    In p (ulp_window 8 penumbra_angle_ref) ->
    In (libm_sin m p) (ulp_window 16 penumbra_sin_ref);
  tan_at_penumbra_angle : forall p : float,
    In p (ulp_window 8 penumbra_angle_ref) ->
    In (libm_tan m p) (ulp_window 16 penumbra_tan_ref)
}.


(** A math library given by a table: the reference values above at the
    arguments around them, the exact values at 0, 1 and -1, a number of
    [0, pi] for the arc cosine elsewhere in [-1, 1], and NaN at every other
    argument.  It shows that the two sets of requirements can be met. *)
Definition around (k : nat) (r x : float) : bool :=
  existsb (fun c => x =? c) (ulp_window k r).

Definition reference_libm : Libm := {|
  libm_atan := fun x =>
    if x =? umbra_slope then umbra_angle_ref
    else if x =? penumbra_slope then penumbra_angle_ref
    else nan;
  libm_acos := fun x =>
    if x =? 1 then 0
    else if x =? -1 then pi64
    else if (-1 <=? x) && (x <=? 1) then 0x1.921fb54442d18p+0
    else nan;
  libm_cos := fun x => if x =? 0 then 1 else nan;
  libm_sin := fun x =>
    if x =? 0 then 0
    else if around 8 umbra_angle_ref x then umbra_sin_ref
    else if around 8 penumbra_angle_ref x then penumbra_sin_ref
    else nan;
  libm_tan := fun x =>
    if x =? 0 then 0
    else if around 8 umbra_angle_ref x then umbra_tan_ref
    else if around 8 penumbra_angle_ref x then penumbra_tan_ref
    else nan
|}.

(** [g] is the opposite of [f], the sign of a zero left aside: how the
    sum of the opposites relates to the sum. *)
Definition opposite (f g : spec_float) : Prop :=
  match f, g with
  | S754_zero _, S754_zero _ => True
  | _, _ => g = SFopp f
  end.

(** Vectors with integer elements. *)
Definition float_of_Z (z : Z) : float :=
  if (z <? 0)%Z then - of_uint63 (Uint63.of_Z (- z))
  else of_uint63 (Uint63.of_Z z).










End Binary64Numbers.

(** * Properties *)

(** ** Properties of the control flow, in every reading *)

Section ControlFlow.
Context {F : Type} {A : Arith F} {T : Trig F}.
Variable K : Constants F.
Local Open Scope scalar_scope.

(** The shape of the result, branch by branch. *)
Lemma check_object_umbra_penumba_cases (bodyPos sunPos : Vec3 F) :
  check_object_umbra_penumba K bodyPos sunPos =
  if np_dot bodyPos sunPos <? lit0 then
    if satvert bodyPos sunPos <=? penvert K bodyPos sunPos then
      if satvert bodyPos sunPos <=? umbvert K bodyPos sunPos
      then (true, true) else (true, false)
    else (false, false)
  else (false, false).
Proof.
  unfold check_object_umbra_penumba, satvert, penvert, umbvert, sathoriz,
    antisolar_angle, penumbra_half_angle, umbra_half_angle.
  cbv zeta.
  destruct (np_dot bodyPos sunPos <? lit0); [ | reflexivity ].
  match goal with |- context [if ?c then _ else (false, false)] =>
    destruct c; [ | reflexivity ] end.
  match goal with |- context [if ?c then _ else (true, false)] =>
    destruct c; reflexivity end.
Qed.

(** C1: [check_eclipse] is the disjunction of the two flags that
    [check_object_umbra_penumba] returns for the body position and the
    negated Sun position. *)
Theorem check_eclipse_or_of_negated_sun (bodyPos sunPos : Vec3 F) :
  check_eclipse K bodyPos sunPos =
  let '(in_penumbra, in_umbra) :=
    check_object_umbra_penumba K bodyPos (vneg sunPos) in
  in_penumbra || in_umbra.
Proof.
  unfold check_eclipse.
  destruct (check_object_umbra_penumba K bodyPos (vneg sunPos)) as [p u].
  now destruct (p || u).
Qed.

(** C2: when the dot product of the two positions is at least zero, both
    flags are false, whatever the functions of the cone geometry are. *)
Theorem sunlit_side_both_false `{!SignTest F} (bodyPos sunPos : Vec3 F) :
  (lit0 <=? np_dot bodyPos sunPos) = true ->
  check_object_umbra_penumba K bodyPos sunPos = (false, false).
Proof.
  intros Hdot.
  rewrite check_object_umbra_penumba_cases.
  now rewrite (nonneg_not_neg _ Hdot).
Qed.

(** C3: when the dot product is negative, [in_penumbra] is the outcome of
    [vert <= penVert], and [in_umbra] is true exactly when in addition
    [vert <= umbVert], the quantities being those of the specification. *)
Theorem shadow_flags_are_cone_tests (bodyPos sunPos : Vec3 F) :
  (np_dot bodyPos sunPos <? lit0) = true ->
  let d := norm sunPos in
  let umbraAngle :=
    np_arctan ((sun_radius_km K - earth_radius_km K) / d) in
  let penumbraAngle :=
    np_arctan ((sun_radius_km K + earth_radius_km K) / d) in
  let angle := angle_between_vectors_rad (vneg sunPos) bodyPos in
  let horiz := norm bodyPos * np_cos angle in
  let vert := norm bodyPos * np_sin angle in
  let inPenumbra := fst (check_object_umbra_penumba K bodyPos sunPos) in
  let inUmbra := snd (check_object_umbra_penumba K bodyPos sunPos) in
  (inPenumbra = true <->
   (vert <=? np_tan penumbraAngle
             * (earth_radius_km K / np_sin penumbraAngle + horiz)) = true)
  /\
  (inUmbra = true <->
   (vert <=? np_tan penumbraAngle
             * (earth_radius_km K / np_sin penumbraAngle + horiz)) = true
   /\
   (vert <=? np_tan umbraAngle
             * (earth_radius_km K / np_sin umbraAngle - horiz)) = true).
Proof.
  intros Hdot; cbv zeta.
  rewrite check_object_umbra_penumba_cases, Hdot.
  unfold satvert, penvert, umbvert, sathoriz, antisolar_angle,
    penumbra_half_angle, umbra_half_angle.
  match goal with |- context [if ?c then _ else (false, false)] =>
    destruct c eqn:Hpen end.
  - match goal with |- context [if ?c then _ else (true, false)] =>
      destruct c eqn:Humb end; cbn [fst snd]; intuition congruence.
  - cbn [fst snd]; intuition congruence.
Qed.

(** C4: a body reported in the umbra is reported in the penumbra. *)
Theorem umbra_within_penumbra (bodyPos sunPos : Vec3 F) :
  snd (check_object_umbra_penumba K bodyPos sunPos) = true ->
  fst (check_object_umbra_penumba K bodyPos sunPos) = true.
Proof.
  rewrite check_object_umbra_penumba_cases.
  destruct (np_dot bodyPos sunPos <? lit0);
    [ destruct (satvert bodyPos sunPos <=? penvert K bodyPos sunPos);
      [ destruct (satvert bodyPos sunPos <=? umbvert K bodyPos sunPos) | ] | ];
    cbn [fst snd]; congruence.
Qed.

(** C9: the degree variant is the radian result multiplied by
    [deg_per_rad], the reading's 180/pi. *)
Theorem angle_deg_is_rad_converted (a b : Vec3 F) :
  angle_between_vectors_deg a b
  = angle_between_vectors_rad a b * deg_per_rad.
Proof.
  unfold angle_between_vectors_deg, angle_between_vectors_rad, np_rad2deg.
  reflexivity.
Qed.

End ControlFlow.

(** ** Exact real arithmetic: the helpers *)

Module ExactTheory.
Import Exact.
Local Open Scope R_scope.

Ltac to_reals :=
  cbv [norm linalg_norm linalg_norm_axis0 np_dot np_sum np_rad2deg
       vmul vdiv_scalar vscale vneg unit_vector
       angle_between_vectors_rad angle_between_vectors_deg
       vx vy vz lit0 add sub mul div neg np_sqrt ltb leb
       np_arctan np_arccos np_cos np_sin np_tan deg_per_rad
       arith trig zero_vector] in *.

Ltac real_ops :=
  cbv [lit0 add sub mul div neg np_sqrt ltb leb
       np_arctan np_arccos np_cos np_sin np_tan deg_per_rad arith trig].

Lemma Rltb_true (x y : R) : Rltb x y = true <-> x < y.
Proof. unfold Rltb; destruct (Rlt_dec x y); intuition discriminate. Qed.

Lemma Rleb_true (x y : R) : Rleb x y = true <-> x <= y.
Proof. unfold Rleb; destruct (Rle_dec x y); intuition discriminate. Qed.

#[export] Instance real_sign_test : SignTest R.
Proof.
  constructor; intros x Hx; to_reals.
  apply Rleb_true in Hx.
  destruct (Rltb x 0) eqn:E; [ | reflexivity ].
  apply Rltb_true in E; lra.
Qed.

Lemma sum_squares_nonneg (v : Vec3 R) : 0 <= np_dot v v.
Proof.
  destruct v as [x y z]; to_reals.
  pose proof (Rle_0_sqr x); pose proof (Rle_0_sqr y);
    pose proof (Rle_0_sqr z); unfold Rsqr in *; lra.
Qed.

Lemma sum_squares_pos (v : Vec3 R) : v <> zero_vector -> 0 < np_dot v v.
Proof.
  intros Hv.
  destruct (Rle_lt_or_eq_dec _ _ (sum_squares_nonneg v)) as [Hlt | Heq];
    [ exact Hlt | exfalso; apply Hv ].
  destruct v as [x y z]; to_reals.
  pose proof (Rle_0_sqr x) as Hx; pose proof (Rle_0_sqr y) as Hy;
    pose proof (Rle_0_sqr z) as Hz; unfold Rsqr in *.
  assert (x * x = 0) as Ex by lra.
  assert (y * y = 0) as Ey by lra.
  assert (z * z = 0) as Ez by lra.
  apply Rsqr_0_uniq in Ex, Ey, Ez; now subst.
Qed.

Lemma norm_pos (v : Vec3 R) : v <> zero_vector -> 0 < norm v.
Proof.
  intros Hv; unfold norm, linalg_norm.
  apply sqrt_lt_R0, sum_squares_pos, Hv.
Qed.

Lemma dot_unit_vectors (a b : Vec3 R) :
  a <> zero_vector -> b <> zero_vector ->
  np_sum (vmul (unit_vector a) (unit_vector b))
  = np_dot a b / (norm a * norm b).
Proof.
  intros Ha Hb.
  pose proof (norm_pos Ha) as Hna; pose proof (norm_pos Hb) as Hnb.
  unfold unit_vector.
  change (@linalg_norm_axis0 R arith) with (@norm R arith).
  set (na := norm a) in *; set (nb := norm b) in *.
  destruct a as [ax ay az], b as [bx by' bz].
  cbv [np_dot np_sum vmul vdiv_scalar vx vy vz add mul div arith].
  field; lra.
Qed.

Lemma vneg_nonzero (a : Vec3 R) : a <> zero_vector -> vneg a <> zero_vector.
Proof.
  intros Ha E; apply Ha; destruct a as [x y z].
  to_reals; injection E as Ex Ey Ez.
  f_equal; lra.
Qed.

Lemma dot_vneg_l (a b : Vec3 R) : np_dot (vneg a) b = - np_dot a b.
Proof. destruct a, b; to_reals; ring. Qed.

Lemma norm_vneg (a : Vec3 R) : norm (vneg a) = norm a.
Proof.
  unfold norm, linalg_norm; f_equal.
  destruct a; to_reals; ring.
Qed.

(** *** The shadow test on the anti-solar axis *)

Lemma atan_pos_bound (x : R) : 0 < x -> 0 < atan x < PI / 2.
Proof.
  intros Hx; split.
  - rewrite <- atan_0; apply atan_increasing, Hx.
  - apply atan_bound.
Qed.

Lemma sin_atan_pos (x : R) : 0 < x -> 0 < sin (atan x) <= x.
Proof.
  intros Hx; destruct (atan_pos_bound Hx) as [H0 H1].
  assert (0 < sin (atan x)) as Hs by (apply sin_gt_0; lra).
  assert (0 < cos (atan x)) as Hc by (apply cos_gt_0; lra).
  split; [ exact Hs | ].
  pose proof (COS_bound (atan x)) as [_ Hc1].
  replace (sin (atan x)) with (x * cos (atan x)).
  - assert (x * cos (atan x) <= x * 1)
      by (apply Rmult_le_compat_l; lra); lra.
  - rewrite <- (tan_atan x) at 1; unfold tan; field; lra.
Qed.

Lemma norm_on_axis (t : R) : norm (mkVec3 t 0 0) = Rabs t.
Proof.
  to_reals.
  replace (t * t + 0 * 0 + 0 * 0) with (Rsqr t) by (unfold Rsqr; ring).
  apply sqrt_Rsqr_abs.
Qed.

(** A body at distance [r] behind the Earth, opposite to a Sun at distance
    [s] on the first axis, is in the penumbra and in the umbra as long as
    [r] stays within the length [earth * s / (sun - earth)] of the umbral
    cone. *)
Lemma on_axis_shadow (K : Constants R) (r s : R) :
  0 < earth_radius_km K < sun_radius_km K ->
  0 < r -> 0 < s ->
  r * (sun_radius_km K - earth_radius_km K) <= earth_radius_km K * s ->
  check_object_umbra_penumba K (mkVec3 (- r) 0 0) (mkVec3 s 0 0)
  = (true, true).
Proof.
  intros [Hre Hrs] Hr Hs Hlen.
  set (body := mkVec3 (- r) 0 0); set (sun := mkVec3 s 0 0).
  assert (norm sun = s) as Hnsun
    by (unfold sun; rewrite norm_on_axis; apply Rabs_pos_eq; lra).
  assert (norm body = r) as Hnbody
    by (unfold body; rewrite norm_on_axis, Rabs_Ropp; apply Rabs_pos_eq; lra).
  assert (body <> zero_vector) as Hb
    by (intros E; injection E as E; lra).
  assert (vneg sun <> zero_vector) as Hs'
    by (intros E; injection E as E _ _; cbv [neg arith] in E; lra).
  assert (antisolar_angle body sun = 0) as Hangle.
  { unfold antisolar_angle, angle_between_vectors_rad.
    rewrite (dot_unit_vectors Hs' Hb), dot_vneg_l, norm_vneg, Hnsun, Hnbody.
    replace (- np_dot sun body / (s * r)) with 1
      by (unfold sun, body; to_reals; field; lra).
    apply acos_1. }
  assert (sathoriz body sun = r) as Hh
    by (unfold sathoriz; rewrite Hangle, Hnbody;
        real_ops; rewrite cos_0; lra).
  assert (satvert body sun = 0) as Hv
    by (unfold satvert; rewrite Hangle, Hnbody;
        real_ops; rewrite sin_0; lra).
  rewrite check_object_umbra_penumba_cases.
  replace (np_dot body sun <? lit0)%sc with true; cycle 1.
  { symmetry; apply Rltb_true; unfold body, sun; to_reals; nra. }
  replace (satvert body sun <=? penvert K body sun)%sc with true; cycle 1.
  { symmetry; apply Rleb_true; rewrite Hv.
    unfold penvert, penumbra_half_angle; rewrite Hh, Hnsun.
    set (x := (sun_radius_km K + earth_radius_km K)%sc / s).
    assert (0 < x) as Hx
      by (unfold x; cbv [add arith]; apply Rdiv_lt_0_compat; lra).
    change (0 <= tan (atan x) * (earth_radius_km K / sin (atan x) + r)).
    rewrite tan_atan; destruct (sin_atan_pos Hx) as [Hsin _].
    apply Rmult_le_pos; [ lra | ].
    apply Rplus_le_le_0_compat; [ | lra ].
    apply Rlt_le, Rdiv_lt_0_compat; assumption. }
  replace (satvert body sun <=? umbvert K body sun)%sc with true;
    [ reflexivity | ].
  symmetry; apply Rleb_true; rewrite Hv.
  unfold umbvert, umbra_half_angle; rewrite Hh, Hnsun.
  set (x := (sun_radius_km K - earth_radius_km K)%sc / s).
  assert (0 < x) as Hx
    by (unfold x; cbv [sub arith]; apply Rdiv_lt_0_compat; lra).
  change (0 <= tan (atan x) * (earth_radius_km K / sin (atan x) - r)).
  rewrite tan_atan; destruct (sin_atan_pos Hx) as [Hsin Hle].
  apply Rmult_le_pos; [ lra | ].
  assert (r * sin (atan x) <= earth_radius_km K) as Hbound.
  { apply Rle_trans with (r * x); [ apply Rmult_le_compat_l; lra | ].
    unfold x; cbv [sub arith].
    apply Rmult_le_reg_r with s; [ exact Hs | ].
    replace (r * ((sun_radius_km K - earth_radius_km K) / s) * s)
      with (r * (sun_radius_km K - earth_radius_km K)) by (field; lra).
    exact Hlen. }
  apply Rmult_le_reg_r with (sin (atan x)); [ exact Hsin | ].
  replace ((earth_radius_km K / sin (atan x) - r) * sin (atan x))
    with (earth_radius_km K - r * sin (atan x)) by (field; lra).
  lra.
Qed.

(** The degree variant multiplies by 180/pi. *)
Lemma angle_deg_exact (a b : Vec3 R) :
  angle_between_vectors_deg a b = angle_between_vectors_rad a b * (180 / PI).
Proof. unfold angle_between_vectors_deg, np_rad2deg; reflexivity. Qed.

End ExactTheory.

(** ** IEEE 754 binary64: what rounding does *)

Module Binary64Theory.
Import Binary64.
Local Open Scope float_scope.

(** *** The order of binary64 numbers *)

Lemma SFcompare_antisym (x y : spec_float) (c : comparison) :
  SFcompare x y = Some c -> SFcompare y x = Some (CompOpp c).
Proof.
  destruct x as [sx | sx | | sx mx ex], y as [sy | sy | | sy my ey];
    cbn; try discriminate;
    try (destruct sx); try (destruct sy);
    intros E; injection E as <-; try reflexivity;
    rewrite (Z.compare_antisym ey ex);
    destruct (Z.compare ey ex); cbn; try reflexivity;
    rewrite (Pos.compare_cont_antisym mx my Eq); cbn;
    now rewrite ?CompOpp_involutive.
Qed.

Lemma leb_not_ltb (x y : float) : (y <=? x) = true -> (x <? y) = false.
Proof.
  rewrite leb_spec, ltb_spec; unfold SFleb, SFltb.
  destruct (SFcompare (Prim2SF y) (Prim2SF x)) as [c | ] eqn:E;
    [ | discriminate ].
  rewrite (SFcompare_antisym _ _ E).
  now destruct c.
Qed.

#[export] Instance float_sign_test : SignTest float.
Proof. constructor; intros x Hx; exact (leb_not_ltb Hx). Qed.

(** [np.arccos] is [libm_acos] on [-1, 1] and NaN outside. *)
Lemma arccos_in_domain (m : Libm) (x : float) :
  (-1 <=? x) && (x <=? 1) = true -> arccos m x = libm_acos m x.
Proof.
  intros H; apply andb_prop in H as [Hlo Hhi]; unfold arccos.
  now rewrite (leb_not_ltb Hlo), (leb_not_ltb Hhi).
Qed.

Lemma arccos_outside_domain (m : Libm) (x : float) :
  (x <? -1) || (1 <? x) = true -> is_nan (arccos m x) = true.
Proof. intros H; unfold arccos; now rewrite H. Qed.

(** *** The angle between two vectors *)

(** C5, as the code has it: the sum of the products of the unit vectors'
    elements goes to [np.arccos] as computed.  The result is the math
    library's arc cosine of it when it lies in [-1, 1], and NaN when
    rounding has taken it outside. *)
Theorem angle_rad_unclamped (m : Libm) (a b : Vec3 float) :
  let s := arccos_argument a b in
  ((-1 <=? s) && (s <=? 1) = true ->
   angle_between_vectors_rad (T := trig m) a b = libm_acos m s)
  /\ ((s <? -1) || (1 <? s) = true ->
      is_nan (angle_between_vectors_rad (T := trig m) a b) = true).
Proof.
  cbv zeta; split; intros H.
  - exact (arccos_in_domain m _ H).
  - exact (arccos_outside_domain m _ H).
Qed.

(** C5 fails at [a = b = (1, 5, 0)]: the argument of [np.arccos] is
    1.0000000000000002, above 1, and the angle is NaN whatever the math
    library. *)
Lemma angle_rad_nan_1_5_0 :
  let a := mkVec3 1 5 0 in
  nonzero a = true
  /\ arccos_argument a a = 0x1.0000000000001p+0
  /\ (1 <? arccos_argument a a) = true
  /\ (forall m : Libm,
        is_nan (angle_between_vectors_rad (T := trig m) a a) = true).
Proof.
  cbv zeta; do 3 (split; [ reflexivity | ]).
  intros m; apply arccos_outside_domain; reflexivity.
Qed.


(** *** Unit vectors *)

(** C8 fails at [v = (1, 1, 0)]: the norm of the unit vector is
    0.9999999999999999. *)
Lemma unit_vector_norm_1_1_0 :
  let v := mkVec3 1 1 0 in
  nonzero v = true
  /\ norm (unit_vector v) = 0x1.fffffffffffffp-1
  /\ (norm (unit_vector v) =? 1) = false.
Proof. cbv zeta; do 2 (split; [ reflexivity | ]); reflexivity. Qed.

(** The squares of large elements overflow: the norm is infinite, the unit
    vector is the zero vector and its norm is 0. *)
Lemma unit_vector_overflow :
  let v := mkVec3 0x1p+600 0 0 in
  nonzero v = true
  /\ unit_vector v = mkVec3 0 0 0
  /\ norm (unit_vector v) = 0.
Proof. cbv zeta; do 2 (split; [ reflexivity | ]); reflexivity. Qed.

(** C10 fails at [v = (2, 5, 0)]: the first element comes back as
    1.9999999999999998. *)
Lemma norm_times_unit_vector_2_5_0 :
  let v := mkVec3 2 5 0 in
  nonzero v = true
  /\ vscale (norm v) (unit_vector v) = mkVec3 0x1.fffffffffffffp+0 5 0
  /\ (vx (vscale (norm v) (unit_vector v)) =? vx v) = false.
Proof. cbv zeta; do 2 (split; [ reflexivity | ]); reflexivity. Qed.

(** With overflowing squares the norm is infinite and the product of the
    norm and the unit vector is NaN in every element. *)
Lemma norm_times_unit_vector_overflow :
  let v := mkVec3 0x1p+600 0 0 in
  norm v = infinity
  /\ vscale (norm v) (unit_vector v) = mkVec3 nan nan nan.
Proof. cbv zeta; split; reflexivity. Qed.

(** *** The scenarios of the specification, as far as binary64 decides them *)

(** A body on the Sun's side, (42164, 0, 0) km with the Sun at
    (1.496e8, 0, 0) km: both flags are false for all radii and every math
    library. *)
Lemma sunlit_scenario_binary64 (m : Libm) (K : Constants float) :
  check_object_umbra_penumba (T := trig m) K
    (mkVec3 42164 0 0) (mkVec3 149600000 0 0) = (false, false).
Proof.
  rewrite check_object_umbra_penumba_cases.
  now replace (np_dot (mkVec3 42164 0 0) (mkVec3 149600000 0 0) <? lit0)%sc
    with false by reflexivity.
Qed.

(** The geostationary body behind the Earth: the dot product is negative,
    and the sum handed to [np.arccos] is exactly 1, so the angle is the math
    library's arc cosine of 1. *)
Lemma geostationary_scenario_binary64 (m : Libm) :
  let bodyPos := mkVec3 (-42164) 0 0 in
  let sunPos := mkVec3 149600000 0 0 in
  (np_dot bodyPos sunPos <? 0) = true
  /\ arccos_argument (vneg sunPos) bodyPos = 1
  /\ angle_between_vectors_rad (T := trig m) (vneg sunPos) bodyPos
     = libm_acos m 1.
Proof. cbv zeta; do 2 (split; [ reflexivity | ]); reflexivity. Qed.

(** The degree variant multiplies by 57.29577951308232. *)
Lemma angle_deg_binary64 (m : Libm) (a b : Vec3 float) :
  angle_between_vectors_deg (T := trig m) a b
  = angle_between_vectors_rad (T := trig m) a b * 0x1.ca5dc1a63c1f8p+5.
Proof. unfold angle_between_vectors_deg, np_rad2deg; reflexivity. Qed.

End Binary64Theory.

(** ** The statements at concrete positions *)

Module Scenarios.
Import Exact ExactTheory.
Local Open Scope R_scope.

Lemma nonzero_of_first (x y z : R) : x <> 0 -> mkVec3 x y z <> zero_vector.
Proof. intros Hx E; injection E as E _ _; exact (Hx E). Defined.

(** A body on the Sun's side: (42164, 0, 0) km with the Sun at
    (1.496e8, 0, 0) km. *)
Lemma sunlit_side_both_false_witness :
  (lit0 <=? np_dot (mkVec3 42164 0 0) (mkVec3 149600000 0 0))%sc = true
  /\ check_object_umbra_penumba constants
       (mkVec3 42164 0 0) (mkVec3 149600000 0 0) = (false, false).
Proof.
  assert ((lit0 <=? np_dot (mkVec3 42164 0 0) (mkVec3 149600000 0 0))%sc
          = true) as Hdot
    by (apply Rleb_true; to_reals; lra).
  split; [ exact Hdot | ].
  exact (sunlit_side_both_false constants _ _ Hdot).
Defined.

(** The geostationary body behind the Earth. *)
Lemma shadow_flags_are_cone_tests_witness :
  let bodyPos := mkVec3 (-42164) 0 0 in
  let sunPos := mkVec3 149600000 0 0 in
  let angle := angle_between_vectors_rad (vneg sunPos) bodyPos in
  let horiz := norm bodyPos * cos angle in
  let vert := norm bodyPos * sin angle in
  let penumbraAngle :=
    atan ((sun_radius_km constants + earth_radius_km constants)
          / norm sunPos) in
  let umbraAngle :=
    atan ((sun_radius_km constants - earth_radius_km constants)
          / norm sunPos) in
  (np_dot bodyPos sunPos <? lit0)%sc = true
  /\ (fst (check_object_umbra_penumba constants bodyPos sunPos) = true <->
      Rleb vert (tan penumbraAngle
                 * (earth_radius_km constants / sin penumbraAngle + horiz))
      = true)
  /\ (snd (check_object_umbra_penumba constants bodyPos sunPos) = true <->
      Rleb vert (tan penumbraAngle
                 * (earth_radius_km constants / sin penumbraAngle + horiz))
      = true
      /\ Rleb vert (tan umbraAngle
                    * (earth_radius_km constants / sin umbraAngle - horiz))
         = true).
Proof.
  cbv zeta.
  assert ((np_dot (mkVec3 (-42164) 0 0) (mkVec3 149600000 0 0) <? lit0)%sc
          = true) as Hdot
    by (apply Rltb_true; to_reals; lra).
  split; [ exact Hdot | ].
  exact (shadow_flags_are_cone_tests constants _ _ Hdot).
Defined.

(** A body 7000 km behind the Earth's centre, on the anti-solar axis. *)
Lemma umbra_within_penumbra_witness :
  snd (check_object_umbra_penumba constants
         (mkVec3 (- (7000)) 0 0) (mkVec3 149600000 0 0)) = true
  /\ fst (check_object_umbra_penumba constants
            (mkVec3 (- (7000)) 0 0) (mkVec3 149600000 0 0)) = true.
Proof.
  assert (snd (check_object_umbra_penumba constants
                 (mkVec3 (- (7000)) 0 0) (mkVec3 149600000 0 0)) = true)
    as Humbra.
  { rewrite (@on_axis_shadow constants 7000 149600000);
      cbn [snd earth_radius_km sun_radius_km constants]; try lra; auto. }
  split; [ exact Humbra | ].
  exact (umbra_within_penumbra constants _ _ Humbra).
Defined.

End Scenarios.

(** * Further properties *)

(** ** Every reading *)

Section Composition.
Context {F : Type} {A : Arith F} {T : Trig F}.
Variable K : Constants F.
Local Open Scope scalar_scope.

(** [check_eclipse] returns the penumbra flag of the test on the negated
    Sun position: the umbra flag never changes its answer. *)
Theorem check_eclipse_is_penumbra_flag (bodyPos sunPos : Vec3 F) :
  check_eclipse K bodyPos sunPos
  = fst (check_object_umbra_penumba K bodyPos (vneg sunPos)).
Proof.
  unfold check_eclipse.
  rewrite check_object_umbra_penumba_cases.
  destruct (np_dot bodyPos (vneg sunPos) <? lit0); [ | reflexivity ].
  destruct (satvert bodyPos (vneg sunPos)
            <=? penvert K bodyPos (vneg sunPos)); [ | reflexivity ].
  now destruct (satvert bodyPos (vneg sunPos)
                <=? umbvert K bodyPos (vneg sunPos)).
Qed.

(** [check_eclipse] answers [True] only when the dot product of the body
    position with the negated Sun position is negative and the body is
    within the penumbral cone measured from the Sun position as given. *)
Lemma check_eclipse_true_only_if (bodyPos sunPos : Vec3 F) :
  check_eclipse K bodyPos sunPos = true ->
  (np_dot bodyPos (vneg sunPos) <? lit0) = true
  /\ (satvert bodyPos (vneg sunPos) <=? penvert K bodyPos (vneg sunPos))
     = true.
Proof.
  unfold check_eclipse.
  rewrite check_object_umbra_penumba_cases.
  destruct (np_dot bodyPos (vneg sunPos) <? lit0);
    [ | cbn; discriminate ].
  destruct (satvert bodyPos (vneg sunPos)
            <=? penvert K bodyPos (vneg sunPos));
    [ auto | cbn; discriminate ].
Qed.

End Composition.

Section Symmetry.
Context {F : Type} {A : Arith F} {T : Trig F} {L : SignLaws F}.
Variable K : Constants F.
Local Open Scope scalar_scope.

Lemma vmul_vneg_vneg (a b : Vec3 F) : vmul (vneg a) (vneg b) = vmul a b.
Proof. unfold vmul, vneg; cbn [vx vy vz]; now rewrite !mul_neg_neg. Qed.

Lemma vmul_comm (a b : Vec3 F) : vmul a b = vmul b a.
Proof.
  unfold vmul.
  now rewrite (mul_comm_law (vx a)), (mul_comm_law (vy a)),
    (mul_comm_law (vz a)).
Qed.

Lemma np_dot_vneg_vneg (a b : Vec3 F) :
  np_dot (vneg a) (vneg b) = np_dot a b.
Proof. unfold np_dot; now rewrite vmul_vneg_vneg. Qed.

Lemma norm_vneg_any (v : Vec3 F) : norm (vneg v) = norm v.
Proof. unfold norm, linalg_norm; now rewrite np_dot_vneg_vneg. Qed.

Lemma unit_vector_vneg (v : Vec3 F) :
  unit_vector (vneg v) = vneg (unit_vector v).
Proof.
  unfold unit_vector, linalg_norm_axis0.
  rewrite vmul_vneg_vneg.
  unfold vdiv_scalar, vneg; cbn [vx vy vz].
  now rewrite !div_neg_l.
Qed.

Lemma angle_rad_vneg_vneg (a b : Vec3 F) :
  angle_between_vectors_rad (vneg a) (vneg b)
  = angle_between_vectors_rad a b.
Proof.
  unfold angle_between_vectors_rad.
  now rewrite !unit_vector_vneg, vmul_vneg_vneg.
Qed.

Lemma angle_rad_comm (a b : Vec3 F) :
  angle_between_vectors_rad a b = angle_between_vectors_rad b a.
Proof.
  unfold angle_between_vectors_rad.
  now rewrite (vmul_comm (unit_vector a)).
Qed.

Lemma shadow_test_reflection (bodyPos sunPos : Vec3 F) :
  check_object_umbra_penumba K (vneg bodyPos) (vneg sunPos)
  = check_object_umbra_penumba K bodyPos sunPos.
Proof.
  rewrite !check_object_umbra_penumba_cases.
  unfold satvert, penvert, umbvert, sathoriz, antisolar_angle,
    penumbra_half_angle, umbra_half_angle.
  now rewrite np_dot_vneg_vneg, !norm_vneg_any, angle_rad_vneg_vneg.
Qed.

End Symmetry.

(** ** IEEE 754 binary64: special values and symmetries *)

Module Binary64Edges.
Import Binary64 Binary64Theory Binary64Vocabulary.
Local Open Scope float_scope.

(** *** Binary64 numbers through their specification *)

Lemma Prim2SF_inj (x y : float) : Prim2SF x = Prim2SF y -> x = y.
Proof.
  intros E.
  rewrite <- (SF2Prim_Prim2SF x), <- (SF2Prim_Prim2SF y).
  now rewrite E.
Qed.

Lemma SFcompare_refl (f : spec_float) :
  f <> S754_nan -> SFcompare f f = Some Eq.
Proof.
  destruct f as [s | s | | s m e]; intros Hf; try (now destruct s);
    [ now elim Hf | ].
  cbn; rewrite Z.compare_refl, Pos.compare_cont_refl.
  now destruct s.
Qed.

Lemma is_nan_true (x : float) : is_nan x = true -> x = nan.
Proof.
  unfold is_nan; rewrite FloatAxioms.eqb_spec; unfold SFeqb; intros H.
  apply Prim2SF_inj; change (Prim2SF nan) with S754_nan.
  destruct (Prim2SF x) eqn:E; try reflexivity;
    rewrite SFcompare_refl in H by discriminate; discriminate.
Qed.

Lemma eqb_zero_true (x : float) :
  (x =? 0) = true -> exists s, Prim2SF x = S754_zero s.
Proof.
  rewrite FloatAxioms.eqb_spec; unfold SFeqb.
  change (Prim2SF 0) with (S754_zero false).
  destruct (Prim2SF x) as [s | s | | s m e]; cbn;
    try (destruct s); try discriminate; eauto.
Qed.

Lemma mul_nan_l (x y : float) : x = nan -> x * y = nan.
Proof.
  intros ->; apply Prim2SF_inj; rewrite mul_spec.
  change (Prim2SF nan) with S754_nan.
  now destruct (Prim2SF y).
Qed.

Lemma mul_nan_r (x y : float) : y = nan -> x * y = nan.
Proof.
  intros ->; apply Prim2SF_inj; rewrite mul_spec.
  change (Prim2SF nan) with S754_nan.
  now destruct (Prim2SF x).
Qed.

Lemma add_nan_l (x y : float) : x = nan -> x + y = nan.
Proof.
  intros ->; apply Prim2SF_inj; rewrite add_spec.
  change (Prim2SF nan) with S754_nan.
  now destruct (Prim2SF y).
Qed.

Lemma add_nan_r (x y : float) : y = nan -> x + y = nan.
Proof.
  intros ->; apply Prim2SF_inj; rewrite add_spec.
  change (Prim2SF nan) with S754_nan.
  now destruct (Prim2SF x).
Qed.

Lemma opp_nan (x : float) : x = nan -> - x = nan.
Proof. now intros ->. Qed.

Lemma mul_zero_or_nan_l (x y : float) :
  zero_or_nan (Prim2SF x) -> zero_or_nan (Prim2SF (x * y)).
Proof.
  rewrite mul_spec; unfold SF64mul.
  destruct (Prim2SF x) as [sx | sx | | sx mx ex]; cbn; try easy;
    now destruct (Prim2SF y).
Qed.

Lemma mul_zero_or_nan_r (x y : float) :
  zero_or_nan (Prim2SF y) -> zero_or_nan (Prim2SF (x * y)).
Proof.
  rewrite mul_spec; unfold SF64mul.
  destruct (Prim2SF y) as [sy | sy | | sy my ey]; cbn; try easy;
    now destruct (Prim2SF x).
Qed.

Lemma add_zero_or_nan (x y : float) :
  zero_or_nan (Prim2SF x) -> zero_or_nan (Prim2SF y) ->
  zero_or_nan (Prim2SF (x + y)).
Proof.
  rewrite add_spec; unfold SF64add.
  destruct (Prim2SF x) as [sx | sx | | sx mx ex]; cbn; try easy;
    destruct (Prim2SF y) as [sy | sy | | sy my ey]; cbn; try easy.
  now destruct sx, sy.
Qed.

Lemma zero_or_nan_not_negative (x : float) :
  zero_or_nan (Prim2SF x) -> (x <? 0) = false.
Proof.
  rewrite ltb_spec; unfold SFltb.
  change (Prim2SF 0) with (S754_zero false).
  now destruct (Prim2SF x).
Qed.

Lemma eqb_zero_zero_or_nan (x : float) :
  (x =? 0) = true -> zero_or_nan (Prim2SF x).
Proof. intros H; destruct (eqb_zero_true H) as [s ->]; exact I. Qed.

Lemma all_zero_elements (v : Vec3 float) :
  all_zero v = true ->
  zero_or_nan (Prim2SF (vx v)) /\ zero_or_nan (Prim2SF (vy v))
  /\ zero_or_nan (Prim2SF (vz v)).
Proof.
  unfold all_zero; intros H.
  apply andb_prop in H as [H Hz]; apply andb_prop in H as [Hx Hy].
  auto using eqb_zero_zero_or_nan.
Qed.

(** The dot product with a vector of zeros is a zero or NaN. *)
Lemma np_dot_zero_or_nan (a b : Vec3 float) :
  all_zero a = true \/ all_zero b = true ->
  zero_or_nan (Prim2SF (np_dot a b)).
Proof.
  intros H; unfold np_dot, np_sum, vmul; cbn [vx vy vz add mul arith].
  destruct H as [H | H]; apply all_zero_elements in H as (Hx & Hy & Hz);
    repeat apply add_zero_or_nan;
    auto using mul_zero_or_nan_l, mul_zero_or_nan_r.
Qed.

(** The dot product with a vector that holds a NaN is NaN. *)
Lemma np_dot_nan (a b : Vec3 float) :
  has_nan a || has_nan b = true -> np_dot a b = nan.
Proof.
  intros H; unfold np_dot, np_sum, vmul; cbn [vx vy vz add mul arith].
  unfold has_nan in H.
  repeat (apply orb_prop in H as [H | H]); apply is_nan_true in H.
  - now apply add_nan_l, add_nan_l, mul_nan_l.
  - now apply add_nan_l, add_nan_r, mul_nan_l.
  - now apply add_nan_r, mul_nan_l.
  - now apply add_nan_l, add_nan_l, mul_nan_r.
  - now apply add_nan_l, add_nan_r, mul_nan_r.
  - now apply add_nan_r, mul_nan_r.
Qed.

Lemma opp_zero_or_nan (x : float) :
  zero_or_nan (Prim2SF x) -> zero_or_nan (Prim2SF (- x)).
Proof. rewrite opp_spec; now destruct (Prim2SF x). Qed.

Lemma is_nan_opp (x : float) : is_nan x = true -> is_nan (- x) = true.
Proof. intros H; now rewrite (is_nan_true _ H). Qed.

Lemma has_nan_vneg (v : Vec3 float) :
  has_nan v = true -> has_nan (vneg v) = true.
Proof.
  unfold has_nan, vneg; cbn [vx vy vz neg arith]; intros H.
  repeat (apply orb_prop in H as [H | H]);
    rewrite (is_nan_opp _ H); now rewrite ?orb_true_r.
Qed.

Lemma np_dot_zero_or_nan_neg (a b : Vec3 float) :
  all_zero b = true -> zero_or_nan (Prim2SF (np_dot a (vneg b))).
Proof.
  intros H; apply all_zero_elements in H as (Hx & Hy & Hz).
  unfold np_dot, np_sum, vmul, vneg; cbn [vx vy vz add mul neg arith].
  repeat apply add_zero_or_nan;
    auto using mul_zero_or_nan_r, opp_zero_or_nan.
Qed.

Lemma np_dot_zero_or_nan_neg_l (a b : Vec3 float) :
  all_zero a = true -> zero_or_nan (Prim2SF (np_dot a (vneg b))).
Proof. intros H; apply np_dot_zero_or_nan; now left. Qed.

(** *** Special values in the shadow test *)

(** A NaN anywhere in the two positions makes the test return
    [(False, False)] and [check_eclipse] return [False]. *)
Theorem nan_position_reports_no_shadow (bodyPos sunPos : Vec3 float) :
  has_nan bodyPos || has_nan sunPos = true ->
  forall (m : Libm) (K : Constants float),
    check_object_umbra_penumba (T := trig m) K bodyPos sunPos
    = (false, false)
    /\ check_eclipse (T := trig m) K bodyPos sunPos = false.
Proof.
  intros H m K; split.
  - rewrite check_object_umbra_penumba_cases, (np_dot_nan _ _ H).
    reflexivity.
  - unfold check_eclipse.
    rewrite check_object_umbra_penumba_cases, np_dot_nan; [ reflexivity | ].
    apply orb_prop in H as [H | H]; rewrite ?H; [ reflexivity | ].
    now rewrite (has_nan_vneg _ H), orb_true_r.
Qed.

(** A position whose elements are all zero, for the body or for the Sun,
    makes the test return [(False, False)] and [check_eclipse] return
    [False], whatever the other position is. *)
Theorem zero_position_reports_no_shadow (bodyPos sunPos : Vec3 float) :
  all_zero bodyPos = true \/ all_zero sunPos = true ->
  forall (m : Libm) (K : Constants float),
    check_object_umbra_penumba (T := trig m) K bodyPos sunPos
    = (false, false)
    /\ check_eclipse (T := trig m) K bodyPos sunPos = false.
Proof.
  intros H m K; split.
  - rewrite check_object_umbra_penumba_cases.
    change (@ltb float arith) with PrimFloat.ltb.
    change (@lit0 float arith) with 0.
    now rewrite (zero_or_nan_not_negative _ (np_dot_zero_or_nan _ _ H)).
  - unfold check_eclipse.
    rewrite check_object_umbra_penumba_cases.
    change (@ltb float arith) with PrimFloat.ltb.
    change (@lit0 float arith) with 0.
    rewrite zero_or_nan_not_negative; [ reflexivity | ].
    destruct H as [H | H];
      [ now apply np_dot_zero_or_nan_neg_l
      | now apply np_dot_zero_or_nan_neg ].
Qed.

(** *** The zero vector in the helpers *)

Lemma square_of_zero (x : float) : (x =? 0) = true -> x * x = 0.
Proof.
  intros H; destruct (eqb_zero_true H) as [s E].
  apply Prim2SF_inj; rewrite mul_spec, E.
  now destruct s.
Qed.

Lemma zero_over_zero (x : float) : (x =? 0) = true -> x / 0 = nan.
Proof.
  intros H; destruct (eqb_zero_true H) as [s E].
  apply Prim2SF_inj; rewrite div_spec, E.
  reflexivity.
Qed.

Lemma squares_of_zeros (v : Vec3 float) :
  all_zero v = true -> vmul v v = mkVec3 0 0 0.
Proof.
  unfold all_zero; intros H.
  apply andb_prop in H as [H Hz]; apply andb_prop in H as [Hx Hy].
  unfold vmul; cbn [mul arith].
  now rewrite !square_of_zero by assumption.
Qed.

Lemma unit_vector_zeros_nan (v : Vec3 float) :
  all_zero v = true -> unit_vector v = mkVec3 nan nan nan.
Proof.
  intros H; unfold unit_vector, linalg_norm_axis0.
  rewrite (squares_of_zeros _ H).
  change (np_sqrt (np_sum (mkVec3 0 0 0))) with 0.
  unfold all_zero in H.
  apply andb_prop in H as [H Hz]; apply andb_prop in H as [Hx Hy].
  unfold vdiv_scalar; cbn [div arith].
  now rewrite !zero_over_zero by assumption.
Qed.

(** The norm of a vector of zeros is [0.0] and its unit vector is NaN in
    every element. *)
Theorem unit_vector_of_zeros (v : Vec3 float) :
  all_zero v = true ->
  norm v = 0 /\ unit_vector v = mkVec3 nan nan nan.
Proof.
  intros H; split.
  - unfold norm, linalg_norm, np_dot.
    now rewrite (squares_of_zeros _ H).
  - exact (unit_vector_zeros_nan _ H).
Qed.

(** With a vector of zeros on either side, the sum handed to [np.arccos]
    is NaN, and the angle is whatever the math library's arc cosine makes
    of NaN. *)
Theorem angle_with_zeros (a b : Vec3 float) :
  all_zero a = true \/ all_zero b = true ->
  arccos_argument a b = nan
  /\ forall m : Libm,
       angle_between_vectors_rad (T := trig m) a b = libm_acos m nan.
Proof.
  intros H.
  assert (arccos_argument a b = nan) as E.
  { unfold arccos_argument.
    destruct H as [H | H];
      rewrite (unit_vector_zeros_nan _ H);
      unfold np_sum, vmul; cbn [vx vy vz add mul arith].
    - now apply add_nan_l, add_nan_l, mul_nan_l.
    - now apply add_nan_l, add_nan_l, mul_nan_r. }
  split; [ exact E | intros m ].
  unfold angle_between_vectors_rad; cbn [np_arccos trig].
  unfold arccos_argument in E; now rewrite E.
Qed.

(** *** Signs *)

Lemma binary_round_aux_opp (s : bool) (mz ez : Z) (lz : location) :
  binary_round_aux prec emax (negb s) mz ez lz
  = SFopp (binary_round_aux prec emax s mz ez lz).
Proof.
  unfold binary_round_aux.
  destruct (shr_fexp prec emax mz ez lz) as [mrs e'].
  destruct (shr_fexp prec emax _ e' loc_Exact) as [mrs2 e2].
  destruct (shr_m mrs2); [ reflexivity | | reflexivity ].
  now destruct (Z.leb e2 (emax - prec)).
Qed.

Lemma float_mul_comm (x y : float) : x * y = y * x.
Proof.
  apply Prim2SF_inj; rewrite !mul_spec; unfold SF64mul, SFmul.
  destruct (Prim2SF x) as [sx | sx | | sx mx ex],
           (Prim2SF y) as [sy | sy | | sy my ey];
    try reflexivity; try (now rewrite xorb_comm).
  now rewrite xorb_comm, Pos.mul_comm, Z.add_comm.
Qed.

Lemma float_mul_opp_opp (x y : float) : (- x) * (- y) = x * y.
Proof.
  apply Prim2SF_inj; rewrite !mul_spec, !opp_spec; unfold SF64mul, SFmul.
  destruct (Prim2SF x) as [sx | sx | | sx mx ex],
           (Prim2SF y) as [sy | sy | | sy my ey];
    cbn [SFopp]; try reflexivity; now destruct sx, sy.
Qed.

Lemma float_div_opp_l (x y : float) : (- x) / y = - (x / y).
Proof.
  apply Prim2SF_inj; rewrite opp_spec, !div_spec, opp_spec.
  unfold SF64div, SFdiv.
  destruct (Prim2SF x) as [sx | sx | | sx mx ex],
           (Prim2SF y) as [sy | sy | | sy my ey];
    cbn [SFopp]; try reflexivity; try (now destruct sx, sy).
  destruct (SFdiv_core_binary prec emax (Z.pos mx) ex (Z.pos my) ey)
    as [[mz ez] lz].
  rewrite <- binary_round_aux_opp.
  now destruct sx, sy.
Qed.

#[export] Instance float_sign_laws : SignLaws float.
Proof.
  constructor.
  - exact float_mul_comm.
  - exact float_mul_opp_opp.
  - exact float_div_opp_l.
Qed.

(** Changing the sign of every element leaves the norm as it is and
    changes the sign of every element of the unit vector.  Equality is that
    of binary64 values with a single NaN: the sign and the payload of a NaN
    are not part of the model. *)
Theorem norm_even_unit_vector_odd (v : Vec3 float) :
  norm (vneg v) = norm v /\ unit_vector (vneg v) = vneg (unit_vector v).
Proof. split; [ apply norm_vneg_any | apply unit_vector_vneg ]. Qed.

(** The angle does not depend on the order of the two vectors, for every
    math library (any two NaNs being the same value). *)
Theorem angle_rad_symmetric (m : Libm) (a b : Vec3 float) :
  angle_between_vectors_rad (T := trig m) a b
  = angle_between_vectors_rad (T := trig m) b a.
Proof. apply angle_rad_comm. Qed.

(** Changing the sign of both vectors leaves the angle as it is (any two
    NaNs being the same value). *)
Theorem angle_rad_even (m : Libm) (a b : Vec3 float) :
  angle_between_vectors_rad (T := trig m) (vneg a) (vneg b)
  = angle_between_vectors_rad (T := trig m) a b.
Proof. apply angle_rad_vneg_vneg. Qed.

(** The shadow test gives the same pair for the two positions and for
    their reflections through the Earth's centre. *)
Theorem shadow_test_point_symmetric
    (m : Libm) (K : Constants float) (bodyPos sunPos : Vec3 float) :
  check_object_umbra_penumba (T := trig m) K (vneg bodyPos) (vneg sunPos)
  = check_object_umbra_penumba (T := trig m) K bodyPos sunPos.
Proof. apply shadow_test_reflection. Qed.

End Binary64Edges.

(** ** IEEE 754 binary64: unit vectors and angles under rounding *)

Module Binary64Rounding.
Import Binary64 Binary64Theory Binary64Vocabulary Binary64Numbers.
Import Binary64Edges ListNotations.
Local Open Scope float_scope.

(** *** Every triple of small integers *)






(** *** Unit vectors of small integer vectors *)





(** *** The angle for every pair of vectors *)





(** With the angle of (2, 5, 0) with itself, its angle with its negation
    is NaN as well. *)
Lemma angle_negation_nan_2_5_0 :
  let a := mkVec3 2 5 0 in
  arccos_argument a (vneg a) = - 0x1.0000000000001p+0
  /\ forall m : Libm,
       is_nan (angle_between_vectors_rad (T := trig m) a (vneg a)) = true.
Proof.
  cbv zeta; split; [ reflexivity | ].
  intros m; apply arccos_outside_domain; reflexivity.
Qed.


(** *** The geostationary scenario *)

Lemma on_pairs_spec (S T : list float) (P : float -> float -> bool) :
  forallb (fun s => forallb (P s) T) S = true ->
  forall s t : float, In s S -> In t T -> P s t = true.
Proof.
  intros H s t Hs Ht.
  rewrite forallb_forall in H; specialize (H s Hs).
  rewrite forallb_forall in H; exact (H t Ht).
Qed.

(** The dot product and the two norms of the scenario involve integers
    below 2^53 only, so they are computed without error, in whatever order
    and whether or not a product is fused with the addition that
    follows. *)
Lemma scenario_dot_products_exact :
  let bodyPos := mkVec3 (-42164) 0 0 in
  let sunPos := mkVec3 149600000 0 0 in
  np_dot bodyPos sunPos = float_of_Z (-42164 * 149600000)
  /\ np_dot sunPos sunPos = float_of_Z (149600000 * 149600000)
  /\ np_dot bodyPos bodyPos = float_of_Z (42164 * 42164)
  /\ norm sunPos = 149600000
  /\ norm bodyPos = 42164.
Proof. cbv zeta; do 4 (split; [ reflexivity | ]); reflexivity. Qed.

(** C6: with the radii of the specification, the body at (-42164, 0, 0) km
    and the Sun at (1.496e8, 0, 0) km, the test returns
    [in_penumbra = True] and [in_umbra = True], for every math library
    that is accurate where the scenario needs it. *)
Theorem geostationary_in_shadow (m : Libm) :
  scenario_accuracy m ->
  check_object_umbra_penumba (T := trig m) constants
    (mkVec3 (-42164) 0 0) (mkVec3 149600000 0 0)
  = (true, true).
Proof.
  intros Hm.
  set (bodyPos := mkVec3 (-42164) 0 0); set (sunPos := mkVec3 149600000 0 0).
  assert (antisolar_angle (T := trig m) bodyPos sunPos = 0) as Hangle.
  { pose proof (geostationary_scenario_binary64 m) as H; cbv zeta in H.
    destruct H as (_ & _ & H); unfold antisolar_angle.
    fold bodyPos sunPos in H; rewrite H; exact (acos_at_one Hm). }
  assert (satvert (T := trig m) bodyPos sunPos = 0) as Hvert.
  { unfold satvert; rewrite Hangle; cbn [np_sin trig].
    rewrite (sin_at_zero Hm); reflexivity. }
  assert (sathoriz (T := trig m) bodyPos sunPos = 42164) as Hhoriz.
  { unfold sathoriz; rewrite Hangle; cbn [np_cos trig].
    rewrite (cos_at_zero Hm); reflexivity. }
  assert ((satvert (T := trig m) bodyPos sunPos
           <=? penvert (T := trig m) constants bodyPos sunPos)%sc = true)
    as Hpen.
  { unfold penvert, penumbra_half_angle; rewrite Hvert, Hhoriz.
    cbn [np_arctan np_sin np_tan trig].
    change ((sun_radius_km constants + earth_radius_km constants)
            / norm sunPos)%sc with penumbra_slope.
    pose proof (atan_at_penumbra_slope Hm) as Hp.
    exact (on_pairs_spec
             (ulp_window 16 penumbra_sin_ref) (ulp_window 16 penumbra_tan_ref)
             (fun s t => 0 <=? t * (earth_radius_km constants / s + 42164))
             ltac:(vm_compute; reflexivity)
             _ _ (sin_at_penumbra_angle Hm Hp)
             (tan_at_penumbra_angle Hm Hp)). }
  assert ((satvert (T := trig m) bodyPos sunPos
           <=? umbvert (T := trig m) constants bodyPos sunPos)%sc = true)
    as Humb.
  { unfold umbvert, umbra_half_angle; rewrite Hvert, Hhoriz.
    cbn [np_arctan np_sin np_tan trig].
    change ((sun_radius_km constants - earth_radius_km constants)
            / norm sunPos)%sc with umbra_slope.
    pose proof (atan_at_umbra_slope Hm) as Hu.
    exact (on_pairs_spec
             (ulp_window 16 umbra_sin_ref) (ulp_window 16 umbra_tan_ref)
             (fun s t => 0 <=? t * (earth_radius_km constants / s - 42164))
             ltac:(vm_compute; reflexivity)
             _ _ (sin_at_umbra_angle Hm Hu)
             (tan_at_umbra_angle Hm Hu)). }
  rewrite check_object_umbra_penumba_cases, Hpen, Humb.
  reflexivity.
Qed.

Lemma in_ulp_window (k : nat) (r : float) : In r (ulp_window k r).
Proof. unfold ulp_window; apply in_or_app; right; left; reflexivity. Qed.

Lemma table_entry (f : float -> float) (W : list float) (v : float) :
  forallb (fun x => Leibniz.eqb (f x) v) W = true ->
  forall x : float, In x W -> f x = v.
Proof.
  intros H x Hx; rewrite forallb_forall in H.
  apply Leibniz.eqb_spec, H, Hx.
Qed.

Lemma reference_libm_scenario_accuracy : scenario_accuracy reference_libm.
Proof.
  constructor; try reflexivity.
  - apply in_ulp_window.
  - intros u Hu.
    rewrite (table_entry (libm_sin reference_libm)
               (ulp_window 8 umbra_angle_ref) umbra_sin_ref
               ltac:(vm_compute; reflexivity) u Hu).
    apply in_ulp_window.
  - intros u Hu.
    rewrite (table_entry (libm_tan reference_libm)
               (ulp_window 8 umbra_angle_ref) umbra_tan_ref
               ltac:(vm_compute; reflexivity) u Hu).
    apply in_ulp_window.
  - apply in_ulp_window.
  - intros p Hp.
    rewrite (table_entry (libm_sin reference_libm)
               (ulp_window 8 penumbra_angle_ref) penumbra_sin_ref
               ltac:(vm_compute; reflexivity) p Hp).
    apply in_ulp_window.
  - intros p Hp.
    rewrite (table_entry (libm_tan reference_libm)
               (ulp_window 8 penumbra_angle_ref) penumbra_tan_ref
               ltac:(vm_compute; reflexivity) p Hp).
    apply in_ulp_window.
Qed.

(** *** The sign of the dot product with the negated Sun position *)

Lemma opposite_opp (f : spec_float) : opposite f (SFopp f).
Proof. now destruct f. Qed.

Lemma binary_round_opp (s : bool) (mx : positive) (ex : Z) :
  binary_round prec emax (negb s) mx ex
  = SFopp (binary_round prec emax s mx ex).
Proof.
  unfold binary_round.
  destruct (shl_align mx ex _) as [mz ez].
  apply binary_round_aux_opp.
Qed.

Lemma binary_normalize_opp (c e : Z) :
  opposite (binary_normalize prec emax c e false)
           (binary_normalize prec emax (- c) e false).
Proof.
  destruct c as [ | p | p]; cbn [binary_normalize Z.opp]; [ exact I | | ].
  - change true with (negb false); rewrite binary_round_opp.
    apply opposite_opp.
  - rewrite (binary_round_opp false p e : binary_round prec emax true p e = _).
    destruct (binary_round prec emax false p e) as [s | s | | s m' e'];
      cbn; try exact I; try reflexivity; now rewrite negb_involutive.
Qed.

Lemma cond_Zopp_negb (s : bool) (m : Z) :
  cond_Zopp (negb s) m = (- cond_Zopp s m)%Z.
Proof. destruct s; cbn; lia. Qed.

Lemma SFadd_opposite (f f' g g' : spec_float) :
  opposite f f' -> opposite g g' ->
  opposite (SFadd prec emax f g) (SFadd prec emax f' g').
Proof.
  intros Hf Hg.
  destruct f as [sf | sf | | sf mf ef], f' as [sf' | sf' | | sf' mf' ef'];
    cbn in Hf; try discriminate Hf;
    try (injection Hf as E1 E2 E3; subst);
    try (injection Hf as E1; subst);
    destruct g as [sg | sg | | sg mg eg], g' as [sg' | sg' | | sg' mg' eg'];
    cbn in Hg; try discriminate Hg;
    try (injection Hg as E1 E2 E3; subst);
    try (injection Hg as E1; subst);
    try exact I; try reflexivity.
  all: try (destruct sf, sf', sg, sg'; exact I).
  all: try (destruct sf, sg; reflexivity).
  all: try (destruct sf; reflexivity).
  all: try (destruct sg; reflexivity).
  cbn [SFadd].
  rewrite !cond_Zopp_negb, <- Z.opp_add_distr.
  apply binary_normalize_opp.
Qed.

Lemma opposite_negative (f f' : spec_float) :
  opposite f f' -> SFltb f' (S754_zero false) = SFltb (S754_zero false) f.
Proof.
  destruct f as [s | s | | s m e], f' as [s' | s' | | s' m' e'];
    cbn; intros H; try discriminate; try reflexivity;
    try (injection H as ->); try (injection H as -> -> ->);
    now destruct s.
Qed.

Lemma float_mul_opp_r (x y : float) : x * (- y) = - (x * y).
Proof.
  apply Prim2SF_inj; rewrite opp_spec, !mul_spec, opp_spec.
  unfold SF64mul, SFmul.
  destruct (Prim2SF x) as [sx | sx | | sx mx ex],
           (Prim2SF y) as [sy | sy | | sy my ey];
    cbn [SFopp]; try reflexivity; try (now destruct sx, sy).
  rewrite <- binary_round_aux_opp.
  now destruct sx, sy.
Qed.

Lemma np_dot_vneg_sign (a b : Vec3 float) :
  (np_dot a (vneg b) <? 0) = (0 <? np_dot a b).
Proof.
  rewrite !ltb_spec; change (Prim2SF 0) with (S754_zero false).
  apply opposite_negative.
  unfold np_dot, np_sum, vmul, vneg; cbn [vx vy vz add mul neg arith].
  rewrite !float_mul_opp_r, !add_spec; unfold SF64add.
  repeat apply SFadd_opposite; rewrite opp_spec; apply opposite_opp.
Qed.

(** [check_eclipse] can answer [True] only for a body whose position has
    a positive dot product with the Sun position it is given. *)
Theorem check_eclipse_needs_positive_dot
    (m : Libm) (K : Constants float) (bodyPos sunPos : Vec3 float) :
  check_eclipse (T := trig m) K bodyPos sunPos = true ->
  (0 <? np_dot bodyPos sunPos) = true.
Proof.
  intros H; apply check_eclipse_true_only_if in H as [H _].
  now rewrite <- np_dot_vneg_sign.
Qed.

End Binary64Rounding.

(** ** The further statements at concrete positions *)

Module Binary64Scenarios.
Import Binary64 Binary64Vocabulary Binary64Edges.
Import Binary64Numbers Binary64Rounding.
Local Open Scope float_scope.

Lemma nan_position_reports_no_shadow_witness :
  has_nan (mkVec3 nan 0 0) || has_nan (mkVec3 149600000 0 0) = true
  /\ forall (m : Libm) (K : Constants float),
       check_object_umbra_penumba (T := trig m) K
         (mkVec3 nan 0 0) (mkVec3 149600000 0 0) = (false, false)
       /\ check_eclipse (T := trig m) K
            (mkVec3 nan 0 0) (mkVec3 149600000 0 0) = false.
Proof.
  split; [ reflexivity | ].
  exact (@nan_position_reports_no_shadow
           (mkVec3 nan 0 0) (mkVec3 149600000 0 0) eq_refl).
Defined.

Lemma zero_position_reports_no_shadow_witness :
  (all_zero (mkVec3 42164 0 0) = true
   \/ all_zero (mkVec3 0 (-0) 0) = true)
  /\ forall (m : Libm) (K : Constants float),
       check_object_umbra_penumba (T := trig m) K
         (mkVec3 42164 0 0) (mkVec3 0 (-0) 0) = (false, false)
       /\ check_eclipse (T := trig m) K
            (mkVec3 42164 0 0) (mkVec3 0 (-0) 0) = false.
Proof.
  split; [ right; reflexivity | ].
  exact (@zero_position_reports_no_shadow
           (mkVec3 42164 0 0) (mkVec3 0 (-0) 0) (or_intror eq_refl)).
Defined.

Lemma unit_vector_of_zeros_witness :
  all_zero (mkVec3 0 (-0) 0) = true
  /\ norm (mkVec3 0 (-0) 0) = 0
  /\ unit_vector (mkVec3 0 (-0) 0) = mkVec3 nan nan nan.
Proof.
  split; [ reflexivity | ].
  exact (@unit_vector_of_zeros (mkVec3 0 (-0) 0) eq_refl).
Defined.

Lemma angle_with_zeros_witness :
  (all_zero (mkVec3 0 0 0) = true \/ all_zero (mkVec3 1 2 3) = true)
  /\ arccos_argument (mkVec3 0 0 0) (mkVec3 1 2 3) = nan
  /\ forall m : Libm,
       angle_between_vectors_rad (T := trig m)
         (mkVec3 0 0 0) (mkVec3 1 2 3) = libm_acos m nan.
Proof.
  split; [ left; reflexivity | ].
  exact (@angle_with_zeros (mkVec3 0 0 0) (mkVec3 1 2 3)
           (or_introl eq_refl)).
Defined.

(** The geostationary scenario with the tabulated math library. *)
Lemma geostationary_in_shadow_witness :
  scenario_accuracy reference_libm
  /\ check_object_umbra_penumba (T := trig reference_libm) constants
       (mkVec3 (-42164) 0 0) (mkVec3 149600000 0 0)
     = (true, true).
Proof.
  split; [ exact reference_libm_scenario_accuracy | ].
  exact (geostationary_in_shadow reference_libm_scenario_accuracy).
Defined.




(** [check_eclipse] given the vector from the Sun to the Earth, with the
    tabulated math library. *)
Lemma check_eclipse_needs_positive_dot_witness :
  let bodyPos := mkVec3 (-42164) 0 0 in
  let sunPos := mkVec3 (-149600000) 0 0 in
  check_eclipse (T := trig reference_libm) constants bodyPos sunPos = true
  /\ (0 <? np_dot bodyPos sunPos) = true.
Proof.
  cbv zeta.
  assert (check_eclipse (T := trig reference_libm) constants
            (mkVec3 (-42164) 0 0) (mkVec3 (-149600000) 0 0) = true) as H
    by (vm_compute; reflexivity).
  split; [ exact H | ].
  exact (check_eclipse_needs_positive_dot _ _ _ _ H).
Defined.

End Binary64Scenarios.
